(** * Agent detection middleware (src/middleware.ts)

    A shallow embedding of the two variants of [detectAgent] found in
    the middleware, together with the runtime primitives they rely on
    (header lookup, non-global regular-expression test, string
    truthiness), and the properties of the classifier. *)

From Stdlib Require Import ZArith NArith List String Ascii Bool Lia DecimalString.
Import ListNotations.

Local Open Scope string_scope.
Local Open Scope Z_scope.

(** ** JavaScript values used by the middleware *)

Module JS.

(** [!!v] for a value of type [string | null]: [null] and the empty
    string are the two falsy values. *)
Definition truthy (v : option string) : bool :=
  match v with
  | None => false
  | Some "" => false
  | Some _ => true
  end.

(** [v ?? d] *)
Definition nullish (v : option string) (d : string) : string :=
  match v with
  | None => d
  | Some s => s
  end.

(** [a || b] on strings. *)
Definition or (a b : string) : string :=
  if truthy (Some a) then a else b.

(** [needle] is a prefix of [s], code unit by code unit. *)
Fixpoint startsWith (s needle : string) : bool :=
  match needle, s with
  | "", _ => true
  | String _ _, "" => false
  | String c needle', String d s' => Ascii.eqb c d && startsWith s' needle'
  end.

(** [s.includes(needle)] *)
Fixpoint includes (s needle : string) : bool :=
  startsWith s needle ||
  match s with
  | "" => false
  | String _ s' => includes s' needle
  end.

(** [Math.max(x, ...xs)] on at least one integer argument. *)
Definition Math_max (x : Z) (xs : list Z) : Z := fold_left Z.max xs x.

(** [Math.min(a, b)] on integers. *)
Definition Math_min (a b : Z) : Z := Z.min a b.

End JS.

(** ** Regular expressions

    Every pattern of the signature table is an alternation of literal
    strings carrying the [i] flag and neither [g] nor [y], so [test]
    keeps no state between calls. *)

Module RegExp.

Inductive Pattern : Type :=
| Lit (s : string)
| Alt (p q : Pattern).

Record t : Type := mk { source : Pattern; ignoreCase : bool }.

(** Canonicalize of the language standard without the [u] flag, on
    the code units a header value can hold (0 to 255): the code unit
    of the upper-case form when that form is one code unit long,
    except that a code unit of 128 or more never maps below 128. *)
Definition Canonicalize (ic : bool) (ch : ascii) : N :=
  let n := N_of_ascii ch in
  if negb ic then n
  else if ((97 <=? n) && (n <=? 122))%N then (n - 32)%N
  else if (n =? 181)%N then 924%N
  else if (n =? 255)%N then 376%N
  else if ((224 <=? n) && (n <=? 254) && negb (n =? 247))%N then (n - 32)%N
  else n.

Definition charMatches (ic : bool) (c d : ascii) : bool :=
  (Canonicalize ic c =? Canonicalize ic d)%N.

(** The literal [lit] matches at the start of [s]. *)
Fixpoint litAt (ic : bool) (lit s : string) : bool :=
  match lit, s with
  | "", _ => true
  | String _ _, "" => false
  | String c lit', String d s' => charMatches ic c d && litAt ic lit' s'
  end.

(** The pattern matches at the start of [s]. *)
Fixpoint matchAt (ic : bool) (p : Pattern) (s : string) : bool :=
  match p with
  | Lit l => litAt ic l s
  | Alt p1 p2 => matchAt ic p1 s || matchAt ic p2 s
  end.

(** Unanchored search: try every start position from the left. *)
Fixpoint search (ic : bool) (p : Pattern) (s : string) : bool :=
  matchAt ic p s ||
  match s with
  | "" => false
  | String _ s' => search ic p s'
  end.

(** [re.test(s)] *)
Definition test (re : t) (s : string) : bool :=
  search (ignoreCase re) (source re) s.

End RegExp.

(** ** Request headers *)

Module Headers.

(** A header list: (name, value) pairs in the order received. *)
Definition t : Type := list (string * string).

Definition byteLower (c : ascii) : ascii :=
  let n := N_of_ascii c in
  if ((65 <=? n) && (n <=? 90))%N then ascii_of_N (n + 32) else c.

Fixpoint lower (s : string) : string :=
  match s with
  | "" => ""
  | String c s' => String (byteLower c) (lower s')
  end.

Definition nameIs (name : string) (h : string * string) : bool :=
  String.eqb (lower (fst h)) (lower name).

(** [headers.get(name)]: [null] when no header has that name, else the
    values of all headers of that name, in order, joined by ", ". *)
Definition get (hs : t) (name : string) : option string :=
  match filter (nameIs name) hs with
  | [] => None
  | vs => Some (String.concat ", " (map snd vs))
  end.

End Headers.

Record Request : Type := mkRequest { headers : Headers.t }.

(** ** The multi-layer variant *)

Module MultiLayer.

Definition i (alts : RegExp.Pattern) : RegExp.t := RegExp.mk alts true.

(** The entries of [KNOWN_AGENTS] in insertion order, which is the
    order [Object.entries] yields them in. *)
Definition KNOWN_AGENTS : list (string * RegExp.t) :=
  [ ("GPTBot", i (RegExp.Lit "GPTBot"));
    ("ChatGPT-User", i (RegExp.Lit "ChatGPT-User"));
    ("OAI-SearchBot", i (RegExp.Lit "OAI-SearchBot"));
    ("ClaudeBot", i (RegExp.Alt (RegExp.Lit "ClaudeBot") (RegExp.Lit "Claude-Web")));
    ("Google-Extended", i (RegExp.Lit "Google-Extended"));
    ("Gemini-Deep-Research", i (RegExp.Lit "Gemini-Deep-Research"));
    ("GoogleVertexBot", i (RegExp.Lit "Google-CloudVertexBot"));
    ("GeminiBot", i (RegExp.Alt (RegExp.Lit "GeminiiOS") (RegExp.Lit "Gemini/")));
    ("PerplexityBot", i (RegExp.Lit "PerplexityBot"));
    ("ByteSpider", i (RegExp.Lit "Bytespider"));
    ("FacebookBot", i (RegExp.Lit "FacebookBot"));
    ("Meta-ExternalAgent", i (RegExp.Lit "Meta-ExternalAgent"));
    ("Applebot", i (RegExp.Lit "Applebot"));
    ("Amazonbot", i (RegExp.Lit "Amazonbot"));
    ("YouBot", i (RegExp.Lit "YouBot"));
    ("DuckAssistant", i (RegExp.Alt (RegExp.Lit "DuckAssistant") (RegExp.Lit "DuckAssistBot"))) ].

Module CONFIDENCE.
Definition SERVER_UA : Z := 95.
Definition PATTERN : Z := 40.
Definition EXTRA_LAYER_BONUS : Z := 5.
Definition AGENT_THRESHOLD : Z := 50.
End CONFIDENCE.

Record DetectionLayer : Type := mkLayer { name : string; score : Z }.

Record DetectionResult : Type := mkResult {
  isAgent : bool;
  agentName : string;
  confidence : Z;
  layers : list string
}.

(** Layer 3: the header heuristics. *)
Definition analyzePatterns (request : Request) : Z :=
  let score := 0 in
  let score :=
    if negb (JS.truthy (Headers.get (headers request) "referer"))
    then score + 10 else score in
  let score :=
    if negb (JS.truthy (Headers.get (headers request) "cookie"))
    then score + 10 else score in
  let score :=
    if negb (JS.truthy (Headers.get (headers request) "accept-language"))
    then score + 15 else score in
  let accept := JS.nullish (Headers.get (headers request) "accept") "" in
  let score :=
    if negb (JS.truthy (Some accept)) || String.eqb accept "*/*"
    then score + 10
    else if negb (JS.includes accept "text/html")
    then score + 10 else score in
  let score :=
    if negb (JS.truthy (Headers.get (headers request) "sec-fetch-mode"))
    then score + 10 else score in
  let score :=
    if negb (JS.truthy (Headers.get (headers request) "sec-fetch-site"))
    then score + 5 else score in
  score.

(** Layer 1: the loop over the table entries. Its state is the pair
    of variables it assigns, [layers] and [agentName]; the first
    matching entry pushes the layer, sets the name and breaks. *)
Fixpoint uaLoop (entries : list (string * RegExp.t)) (ua : string)
    (st : list DetectionLayer * string) : list DetectionLayer * string :=
  match entries with
  | [] => st
  | (name, pattern) :: rest =>
      if RegExp.test pattern ua
      then ((fst st ++ [mkLayer "ua" CONFIDENCE.SERVER_UA])%list, name)
      else uaLoop rest ua st
  end.

Definition detectAgent (request : Request) : DetectionResult :=
  let ua := JS.nullish (Headers.get (headers request) "user-agent") "" in
  let '(layers, agentName) := uaLoop KNOWN_AGENTS ua ([], "") in
  let patternScore := analyzePatterns request in
  let layers :=
    if patternScore >=? CONFIDENCE.PATTERN
    then (layers ++ [mkLayer "pattern" patternScore])%list else layers in
  (* [layers.length === 0] is the first branch; in the other one
     [Math.max] receives at least one score. *)
  match map score layers with
  | [] => mkResult false "" 0 []
  | s :: ss =>
      let maxScore := JS.Math_max s ss in
      let extraLayers := Z.of_nat (List.length layers) - 1 in
      let finalConfidence :=
        JS.Math_min 100 (maxScore + extraLayers * CONFIDENCE.EXTRA_LAYER_BONUS) in
      mkResult (finalConfidence >=? CONFIDENCE.AGENT_THRESHOLD)
               (JS.or agentName "unknown-pattern")
               finalConfidence
               (map name layers)
  end.

End MultiLayer.

(** ** The single-layer variant *)

Module SingleLayer.

Definition i (alts : RegExp.Pattern) : RegExp.t := RegExp.mk alts true.

Definition KNOWN_AGENTS : list (string * RegExp.t) :=
  [ ("GPTBot", i (RegExp.Lit "GPTBot"));
    ("ChatGPT-User", i (RegExp.Lit "ChatGPT-User"));
    ("OAI-SearchBot", i (RegExp.Lit "OAI-SearchBot"));
    ("ClaudeBot", i (RegExp.Alt (RegExp.Lit "ClaudeBot") (RegExp.Lit "Claude-Web")));
    ("Google-Extended", i (RegExp.Lit "Google-Extended"));
    ("Gemini-Deep-Research", i (RegExp.Lit "Gemini-Deep-Research"));
    ("GoogleVertexBot", i (RegExp.Lit "Google-CloudVertexBot"));
    ("GeminiBot", i (RegExp.Alt (RegExp.Lit "GeminiiOS") (RegExp.Lit "Gemini/")));
    ("PerplexityBot", i (RegExp.Lit "PerplexityBot"));
    ("ByteSpider", i (RegExp.Lit "Bytespider"));
    ("FacebookBot", i (RegExp.Lit "FacebookBot"));
    ("Meta-ExternalAgent", i (RegExp.Lit "Meta-ExternalAgent"));
    ("Applebot", i (RegExp.Lit "Applebot"));
    ("Amazonbot", i (RegExp.Lit "Amazonbot"));
    ("YouBot", i (RegExp.Lit "YouBot"));
    ("DuckAssistant", i (RegExp.Alt (RegExp.Lit "DuckAssistant") (RegExp.Lit "DuckAssistBot"))) ].

Record Agent : Type := mkAgent {
  isAgent : bool;
  agentName : string;
  confidence : Z
}.

(** The loop returns from the function at the first matching entry. *)
Fixpoint detectLoop (entries : list (string * RegExp.t)) (ua : string) : Agent :=
  match entries with
  | [] => mkAgent false "" 0
  | (name, pattern) :: rest =>
      if RegExp.test pattern ua
      then mkAgent true name 95
      else detectLoop rest ua
  end.

Definition detectAgent (ua : string) : Agent := detectLoop KNOWN_AGENTS ua.

(** What [middleware] passes to [detectAgent]. *)
Definition userAgent (request : Request) : string :=
  JS.nullish (Headers.get (headers request) "user-agent") "".

End SingleLayer.

(** ** Sample requests *)

Module Samples.

Definition gptbot : Request :=
  mkRequest [("User-Agent", "GPTBot/1.0")].

Definition wildcard : Request :=
  mkRequest [("user-agent", "curl/8.4.0"); ("accept", "*/*")].

Definition browser (ua : string) : Request :=
  mkRequest
    [ ("user-agent", ua);
      ("referer", "https://example.com/");
      ("cookie", "sid=1");
      ("accept-language", "en-US,en;q=0.9");
      ("accept", "text/html,application/xhtml+xml");
      ("sec-fetch-mode", "navigate");
      ("sec-fetch-site", "same-origin") ].

End Samples.

(** ** Vocabulary of the properties *)

Module Spec.

(** The identification string of a request, as [detectAgent] reads it. *)
Definition userAgent (request : Request) : string :=
  JS.nullish (Headers.get (headers request) "user-agent") "".

(** Some entry among [entries] has a pattern that accepts [ua]. *)
Definition anyMatch (entries : list (string * RegExp.t)) (ua : string) : bool :=
  existsb (fun e => RegExp.test (snd e) ua) entries.

(** The header [name] is missing or empty. *)
Definition absent (request : Request) (name : string) : bool :=
  negb (JS.truthy (Headers.get (headers request) name)).

(** Path condition of the first [score += 10] of the Accept rule. *)
Definition acceptWildcardFires (request : Request) : bool :=
  let accept := JS.nullish (Headers.get (headers request) "accept") "" in
  negb (JS.truthy (Some accept)) || String.eqb accept "*/*".

(** Path condition of the second [score += 10] of the Accept rule. *)
Definition acceptNoHtmlFires (request : Request) : bool :=
  let accept := JS.nullish (Headers.get (headers request) "accept") "" in
  negb (negb (JS.truthy (Some accept)) || String.eqb accept "*/*")
  && negb (JS.includes accept "text/html").

Definition weight (fires : bool) (w : Z) : Z := if fires then w else 0.

(** The request with one more header in front of its header list. *)
Definition withHeader (name value : string) (request : Request) : Request :=
  mkRequest ((name, value) :: headers request).

(** The three fields the single-layer variant reports. *)
Definition agentOf (r : MultiLayer.DetectionResult) : SingleLayer.Agent :=
  SingleLayer.mkAgent (MultiLayer.isAgent r) (MultiLayer.agentName r)
                      (MultiLayer.confidence r).

End Spec.

(** ** The log label of [middleware] *)

Module Label.

(** A template literal prints an integer in decimal, with a minus
    sign in front of a negative one. *)
Definition numberToString (z : Z) : string :=
  NilZero.string_of_int (Z.to_int z).

(** [xs.join(sep)] *)
Definition join (xs : list string) (sep : string) : string :=
  String.concat sep xs.

(** The constant [label] of the multi-layer [middleware]. *)
Definition label (detection : MultiLayer.DetectionResult) : string :=
  if MultiLayer.isAgent detection
  then MultiLayer.agentName detection ++ " ("
       ++ numberToString (MultiLayer.confidence detection) ++ "%, "
       ++ join (MultiLayer.layers detection) "+" ++ ")"
  else "human".

(** The label the single-layer [middleware] interpolates in its log line. *)
Definition singleLabel (agent : SingleLayer.Agent) : string :=
  if SingleLayer.isAgent agent then SingleLayer.agentName agent else "human".

End Label.

(** ** Measures on patterns and strings *)

Module Measure.

(** Length of the shortest string a pattern accepts. *)
Fixpoint minLength (p : RegExp.Pattern) : nat :=
  match p with
  | RegExp.Lit l => String.length l
  | RegExp.Alt p1 p2 => Nat.min (minLength p1) (minLength p2)
  end.

(** Every pattern among [entries] carries the [i] flag. *)
Definition allIgnoreCase (entries : list (string * RegExp.t)) : bool :=
  forallb (fun e => RegExp.ignoreCase (snd e)) entries.

End Measure.

(** ** The classifier on the sample requests *)

Example scenario_signature_and_pattern :
  MultiLayer.detectAgent Samples.gptbot
  = MultiLayer.mkResult true "GPTBot" 100 ["ua"; "pattern"].
Proof. reflexivity. Qed.

Example scenario_wildcard_client :
  MultiLayer.detectAgent Samples.wildcard
  = MultiLayer.mkResult true "unknown-pattern" 60 ["pattern"].
Proof. reflexivity. Qed.

Example scenario_browser :
  MultiLayer.detectAgent (Samples.browser "Mozilla/5.0")
  = MultiLayer.mkResult false "" 0 [].
Proof. reflexivity. Qed.

Example scenario_two_signatures :
  MultiLayer.detectAgent (Samples.browser "Applebot/0.1 (like ClaudeBot)")
  = MultiLayer.mkResult true "ClaudeBot" 95 ["ua"].
Proof. reflexivity. Qed.

Example scenario_signature_only :
  MultiLayer.detectAgent (Samples.browser "Mozilla/5.0 (compatible; claudebot/1.0)")
  = MultiLayer.mkResult true "ClaudeBot" 95 ["ua"].
Proof. reflexivity. Qed.

(** ** The regular-expression test *)

Lemma search_split (ic : bool) (p : RegExp.Pattern) (s : string) :
  RegExp.search ic p s = true <->
  exists before rest : string,
    s = (before ++ rest)%string /\ RegExp.matchAt ic p rest = true.
Proof.
  split.
  - induction s as [|c s IH]; simpl; intros H.
    + rewrite orb_false_r in H. exists "", "". split; [reflexivity | exact H].
    + apply orb_true_iff in H as [H | H].
      * exists "", (String c s). split; [reflexivity | exact H].
      * destruct (IH H) as (before & rest & -> & Hm).
        exists (String c before), rest. split; [reflexivity | exact Hm].
  - intros (before & rest & -> & Hm).
    induction before as [|c before IH]; simpl.
    + destruct rest; simpl; rewrite Hm; reflexivity.
    + rewrite IH. apply orb_true_r.
Qed.

Example test_ignores_case :
  RegExp.test (MultiLayer.i (RegExp.Lit "Bytespider")) "Mozilla/5.0 BYTESPIDER" = true
  /\ RegExp.test (MultiLayer.i (RegExp.Lit "Gemini/")) "gemini-1.5" = false
  /\ RegExp.test (RegExp.mk (RegExp.Lit "GPTBot") false) "gptbot" = false.
Proof. repeat split. Qed.

(** ** The pattern scorer *)

Ltac split_ifs :=
  repeat match goal with
         | |- context [if ?b then _ else _] => destruct b eqn:?
         end.

Lemma analyzePatterns_range (request : Request) :
  0 <= MultiLayer.analyzePatterns request <= 60.
Proof.
  unfold MultiLayer.analyzePatterns; cbv zeta.
  split_ifs; lia.
Qed.

Lemma analyzePatterns_rows (request : Request) :
  MultiLayer.analyzePatterns request
  = Spec.weight (Spec.absent request "referer") 10
    + Spec.weight (Spec.absent request "cookie") 10
    + Spec.weight (Spec.absent request "accept-language") 15
    + Spec.weight (Spec.acceptWildcardFires request) 10
    + Spec.weight (Spec.acceptNoHtmlFires request) 10
    + Spec.weight (Spec.absent request "sec-fetch-mode") 10
    + Spec.weight (Spec.absent request "sec-fetch-site") 5.
Proof.
  unfold MultiLayer.analyzePatterns, Spec.weight, Spec.absent,
    Spec.acceptWildcardFires, Spec.acceptNoHtmlFires; cbv zeta.
  destruct (negb (JS.truthy (Headers.get (headers request) "referer")));
  destruct (negb (JS.truthy (Headers.get (headers request) "cookie")));
  destruct (negb (JS.truthy (Headers.get (headers request) "accept-language")));
  destruct (negb (JS.truthy (Some (JS.nullish (Headers.get (headers request) "accept") "")))
            || String.eqb (JS.nullish (Headers.get (headers request) "accept") "") "*/*");
  destruct (negb (JS.includes (JS.nullish (Headers.get (headers request) "accept") "") "text/html"));
  destruct (negb (JS.truthy (Headers.get (headers request) "sec-fetch-mode")));
  destruct (negb (JS.truthy (Headers.get (headers request) "sec-fetch-site")));
  reflexivity.
Qed.

(** ** The signature loop *)

Section Loop.

Variable ua : string.

Lemma uaLoop_no_match entries st :
  Spec.anyMatch entries ua = false ->
  MultiLayer.uaLoop entries ua st = st.
Proof.
  induction entries as [|[n p] rest IH]; simpl; intros H.
  - reflexivity.
  - apply orb_false_iff in H as [Hp Hrest].
    rewrite Hp. now apply IH.
Qed.

Lemma uaLoop_first_match entries st k name pattern :
  nth_error entries k = Some (name, pattern) ->
  RegExp.test pattern ua = true ->
  Spec.anyMatch (firstn k entries) ua = false ->
  MultiLayer.uaLoop entries ua st
  = ((fst st ++ [MultiLayer.mkLayer "ua" 95])%list, name).
Proof.
  revert k.
  induction entries as [|[n p] rest IH]; intros [|k] Hk Ht Hbefore;
    simpl in *; try discriminate.
  - injection Hk as -> ->. now rewrite Ht.
  - apply orb_false_iff in Hbefore as [Hp Hrest].
    rewrite Hp. now apply (IH k).
Qed.

Lemma anyMatch_first entries :
  Spec.anyMatch entries ua = true ->
  exists k name pattern,
    nth_error entries k = Some (name, pattern)
    /\ RegExp.test pattern ua = true
    /\ Spec.anyMatch (firstn k entries) ua = false.
Proof.
  induction entries as [|[n p] rest IH]; simpl; intros H.
  - discriminate.
  - destruct (RegExp.test p ua) eqn:Hp.
    + exists 0%nat, n, p. repeat split; assumption.
    + destruct (IH H) as (k & name & pattern & Hk & Ht & Hb).
      exists (S k), name, pattern. simpl. rewrite Hp. repeat split; assumption.
Qed.

Lemma detectLoop_no_match entries :
  Spec.anyMatch entries ua = false ->
  SingleLayer.detectLoop entries ua = SingleLayer.mkAgent false "" 0.
Proof.
  induction entries as [|[n p] rest IH]; simpl; intros H.
  - reflexivity.
  - apply orb_false_iff in H as [Hp Hrest].
    rewrite Hp. now apply IH.
Qed.

Lemma detectLoop_first_match entries k name pattern :
  nth_error entries k = Some (name, pattern) ->
  RegExp.test pattern ua = true ->
  Spec.anyMatch (firstn k entries) ua = false ->
  SingleLayer.detectLoop entries ua = SingleLayer.mkAgent true name 95.
Proof.
  revert k.
  induction entries as [|[n p] rest IH]; intros [|k] Hk Ht Hbefore;
    simpl in *; try discriminate.
  - injection Hk as -> ->. now rewrite Ht.
  - apply orb_false_iff in Hbefore as [Hp Hrest].
    rewrite Hp. now apply (IH k).
Qed.

End Loop.

Lemma known_names_truthy name pattern :
  In (name, pattern) MultiLayer.KNOWN_AGENTS ->
  JS.or name "unknown-pattern" = name.
Proof.
  assert (H : forallb (fun e => String.eqb (JS.or (fst e) "unknown-pattern") (fst e))
                MultiLayer.KNOWN_AGENTS = true) by reflexivity.
  rewrite forallb_forall in H.
  intros Hin. apply String.eqb_eq. exact (H _ Hin).
Qed.

(** ** The classifier, case by case *)

Lemma detectAgent_no_match (request : Request) :
  Spec.anyMatch MultiLayer.KNOWN_AGENTS (Spec.userAgent request) = false ->
  MultiLayer.detectAgent request
  = if MultiLayer.analyzePatterns request >=? 40
    then MultiLayer.mkResult (MultiLayer.analyzePatterns request >=? 50)
           "unknown-pattern" (MultiLayer.analyzePatterns request) ["pattern"]
    else MultiLayer.mkResult false "" 0 [].
Proof.
  intros H. unfold MultiLayer.detectAgent.
  fold (Spec.userAgent request).
  rewrite (uaLoop_no_match _ _ _ H).
  pose proof (analyzePatterns_range request) as Hr.
  unfold MultiLayer.CONFIDENCE.PATTERN.
  destruct (MultiLayer.analyzePatterns request >=? 40) eqn:Hq; simpl.
  - unfold JS.Math_min, MultiLayer.CONFIDENCE.AGENT_THRESHOLD,
      MultiLayer.CONFIDENCE.EXTRA_LAYER_BONUS.
    rewrite Z.add_0_r, Z.min_r by lia.
    reflexivity.
  - reflexivity.
Qed.

Lemma detectAgent_first_match (request : Request) k name pattern :
  nth_error MultiLayer.KNOWN_AGENTS k = Some (name, pattern) ->
  RegExp.test pattern (Spec.userAgent request) = true ->
  Spec.anyMatch (firstn k MultiLayer.KNOWN_AGENTS) (Spec.userAgent request) = false ->
  MultiLayer.detectAgent request
  = if MultiLayer.analyzePatterns request >=? 40
    then MultiLayer.mkResult true name 100 ["ua"; "pattern"]
    else MultiLayer.mkResult true name 95 ["ua"].
Proof.
  intros Hk Ht Hb. unfold MultiLayer.detectAgent.
  fold (Spec.userAgent request).
  rewrite (uaLoop_first_match _ _ _ _ _ _ Hk Ht Hb).
  rewrite (known_names_truthy name pattern) by (eapply nth_error_In; eassumption).
  pose proof (analyzePatterns_range request) as Hr.
  unfold MultiLayer.CONFIDENCE.PATTERN.
  destruct (MultiLayer.analyzePatterns request >=? 40) eqn:Hq; simpl.
  - unfold JS.Math_min, JS.Math_max, MultiLayer.CONFIDENCE.AGENT_THRESHOLD,
      MultiLayer.CONFIDENCE.EXTRA_LAYER_BONUS, MultiLayer.CONFIDENCE.SERVER_UA.
    simpl fold_left.
    replace (Z.max 95 (MultiLayer.analyzePatterns request)) with 95 by lia.
    reflexivity.
  - reflexivity.
Qed.

(** Every result has one of four shapes. *)
Lemma detectAgent_shape (request : Request) :
  let ps := MultiLayer.analyzePatterns request in
  (ps < 40 /\ MultiLayer.detectAgent request = MultiLayer.mkResult false "" 0 [])
  \/ (40 <= ps <= 60 /\ MultiLayer.detectAgent request
        = MultiLayer.mkResult (ps >=? 50) "unknown-pattern" ps ["pattern"])
  \/ (exists name, ps < 40 /\ MultiLayer.detectAgent request
        = MultiLayer.mkResult true name 95 ["ua"])
  \/ (exists name, 40 <= ps /\ MultiLayer.detectAgent request
        = MultiLayer.mkResult true name 100 ["ua"; "pattern"]).
Proof.
  intros ps. pose proof (analyzePatterns_range request) as Hr. fold ps in Hr.
  destruct (Spec.anyMatch MultiLayer.KNOWN_AGENTS (Spec.userAgent request)) eqn:Hm.
  - destruct (anyMatch_first _ _ Hm) as (k & name & pattern & Hk & Ht & Hb).
    rewrite (detectAgent_first_match _ _ _ _ Hk Ht Hb). fold ps.
    destruct (ps >=? 40) eqn:Hq.
    + right; right; right. exists name. split; [lia | reflexivity].
    + right; right; left. exists name. split; [lia | reflexivity].
  - rewrite (detectAgent_no_match _ Hm). fold ps.
    destruct (ps >=? 40) eqn:Hq.
    + right; left. split; [lia | reflexivity].
    + left. split; [lia | reflexivity].
Qed.

(** ** Header lookup on an extended header list *)

Lemma get_withHeader_other name name' value (request : Request) :
  Headers.nameIs name' (name, value) = false ->
  Headers.get (headers (Spec.withHeader name value request)) name'
  = Headers.get (headers request) name'.
Proof.
  intros H. unfold Headers.get. simpl. now rewrite H.
Qed.

Lemma get_withHeader_fresh name value (request : Request) :
  Headers.get (headers request) name = None ->
  Headers.get (headers (Spec.withHeader name value request)) name = Some value.
Proof.
  unfold Headers.get. simpl.
  assert (Hn : Headers.nameIs name (name, value) = true)
    by (unfold Headers.nameIs; apply String.eqb_refl).
  rewrite Hn.
  destruct (filter (Headers.nameIs name) (headers request)); [reflexivity | discriminate].
Qed.

Lemma browser_userAgent (ua : string) :
  SingleLayer.userAgent (Samples.browser ua) = ua
  /\ MultiLayer.analyzePatterns (Samples.browser ua) = 0.
Proof. split; reflexivity. Qed.

(** ** Properties of the classifier *)

(** C1. The decision is the threshold test on the confidence:
    [isAgent] is [true] exactly when [confidence >= 50]; a result with
    no layer has confidence 0 and [isAgent = false]. *)
Theorem isAgent_iff_threshold (request : Request) :
  MultiLayer.isAgent (MultiLayer.detectAgent request)
  = (MultiLayer.confidence (MultiLayer.detectAgent request)
       >=? MultiLayer.CONFIDENCE.AGENT_THRESHOLD)
  /\ MultiLayer.CONFIDENCE.AGENT_THRESHOLD = 50
  /\ (MultiLayer.layers (MultiLayer.detectAgent request) = [] ->
      MultiLayer.confidence (MultiLayer.detectAgent request) = 0
      /\ MultiLayer.isAgent (MultiLayer.detectAgent request) = false).
Proof.
  destruct (detectAgent_shape request)
    as [[_ ->] | [[_ ->] | [(name & _ & ->) | (name & _ & ->)]]];
    simpl; repeat split; try reflexivity; discriminate.
Qed.

Lemma isAgent_iff_threshold_witness :
  MultiLayer.layers (MultiLayer.detectAgent (Samples.browser "Mozilla/5.0")) = []
  /\ MultiLayer.confidence (MultiLayer.detectAgent (Samples.browser "Mozilla/5.0")) = 0
  /\ MultiLayer.isAgent (MultiLayer.detectAgent (Samples.browser "Mozilla/5.0")) = false.
Proof.
  split; [reflexivity |].
  apply (isAgent_iff_threshold (Samples.browser "Mozilla/5.0")).
  reflexivity.
Defined.

(** C2. Whatever the headers of the request, the confidence is an
    integer between 0 and 100. *)
Theorem confidence_range (request : Request) :
  0 <= MultiLayer.confidence (MultiLayer.detectAgent request) <= 100.
Proof.
  destruct (detectAgent_shape request)
    as [[_ ->] | [[H ->] | [(name & _ & ->) | (name & _ & ->)]]];
    simpl; lia.
Qed.

(** C10. The confidence is 0 or at least 40: no request has a
    confidence from 1 to 39. *)
Theorem confidence_gap (request : Request) :
  MultiLayer.confidence (MultiLayer.detectAgent request) = 0
  \/ 40 <= MultiLayer.confidence (MultiLayer.detectAgent request).
Proof.
  destruct (detectAgent_shape request)
    as [[_ ->] | [[H ->] | [(name & _ & ->) | (name & _ & ->)]]];
    simpl; lia.
Qed.

(** C4. When some entry of the table accepts the identification
    string, the name in the result is the name of the first such entry
    in table order (entry [k] accepts the string and no entry before it
    does), the layer list starts with the signature layer, and the
    confidence is at least that layer's fixed score of 95. *)
Theorem first_match_wins (request : Request) :
  Spec.anyMatch MultiLayer.KNOWN_AGENTS (Spec.userAgent request) = true ->
  (exists (k : nat) (pattern : RegExp.t),
      nth_error MultiLayer.KNOWN_AGENTS k
      = Some (MultiLayer.agentName (MultiLayer.detectAgent request), pattern)
      /\ RegExp.test pattern (Spec.userAgent request) = true
      /\ Spec.anyMatch (firstn k MultiLayer.KNOWN_AGENTS) (Spec.userAgent request)
         = false)
  /\ hd_error (MultiLayer.layers (MultiLayer.detectAgent request)) = Some "ua"
  /\ MultiLayer.CONFIDENCE.SERVER_UA
     <= MultiLayer.confidence (MultiLayer.detectAgent request).
Proof.
  intros Hm.
  destruct (anyMatch_first _ _ Hm) as (k & name & pattern & Hk & Ht & Hb).
  rewrite (detectAgent_first_match _ _ _ _ Hk Ht Hb).
  unfold MultiLayer.CONFIDENCE.SERVER_UA.
  destruct (MultiLayer.analyzePatterns request >=? 40); simpl.
  all: split; [exists k, pattern; auto | split; [reflexivity | lia]].
Qed.

Lemma first_match_wins_witness :
  (exists (k : nat) (pattern : RegExp.t),
      nth_error MultiLayer.KNOWN_AGENTS k
      = Some (MultiLayer.agentName
                (MultiLayer.detectAgent (Samples.browser "Applebot/0.1 (like ClaudeBot)")),
              pattern)
      /\ RegExp.test pattern "Applebot/0.1 (like ClaudeBot)" = true
      /\ Spec.anyMatch (firstn k MultiLayer.KNOWN_AGENTS)
           "Applebot/0.1 (like ClaudeBot)" = false)
  /\ hd_error (MultiLayer.layers
       (MultiLayer.detectAgent (Samples.browser "Applebot/0.1 (like ClaudeBot)")))
     = Some "ua"
  /\ 95 <= MultiLayer.confidence
       (MultiLayer.detectAgent (Samples.browser "Applebot/0.1 (like ClaudeBot)")).
Proof.
  apply (first_match_wins (Samples.browser "Applebot/0.1 (like ClaudeBot)")).
  reflexivity.
Defined.

(** C5. With no entry of the table accepting the identification
    string and a pattern score below 40, the result is the empty one:
    no layer, confidence 0, not an agent, empty name. *)
Theorem no_match_low_score (request : Request) :
  Spec.anyMatch MultiLayer.KNOWN_AGENTS (Spec.userAgent request) = false ->
  MultiLayer.analyzePatterns request < 40 ->
  MultiLayer.detectAgent request = MultiLayer.mkResult false "" 0 [].
Proof.
  intros Hm Hlow. rewrite (detectAgent_no_match _ Hm).
  destruct (MultiLayer.analyzePatterns request >=? 40) eqn:Hq; [lia | reflexivity].
Qed.

Lemma no_match_low_score_witness :
  MultiLayer.detectAgent
    (mkRequest [("user-agent", "Mozilla/5.0"); ("cookie", "sid=1");
                ("accept", "text/html"); ("sec-fetch-mode", "navigate")])
  = MultiLayer.mkResult false "" 0 [].
Proof.
  apply no_match_low_score; [reflexivity | vm_compute; reflexivity].
Defined.

(** C6. With no entry of the table accepting the identification
    string and a pattern score of at least 40, the only layer is
    "pattern", the confidence is the pattern score itself, the name is
    "unknown-pattern" and the decision is the test [patternScore >= 50]. *)
Theorem no_match_high_score (request : Request) :
  Spec.anyMatch MultiLayer.KNOWN_AGENTS (Spec.userAgent request) = false ->
  40 <= MultiLayer.analyzePatterns request ->
  MultiLayer.detectAgent request
  = MultiLayer.mkResult (MultiLayer.analyzePatterns request >=? 50)
      "unknown-pattern" (MultiLayer.analyzePatterns request) ["pattern"].
Proof.
  intros Hm Hhigh. rewrite (detectAgent_no_match _ Hm).
  destruct (MultiLayer.analyzePatterns request >=? 40) eqn:Hq; [reflexivity | lia].
Qed.

Lemma no_match_high_score_witness :
  MultiLayer.detectAgent
    (mkRequest [("user-agent", "Mozilla/5.0"); ("cookie", "sid=1");
                ("accept", "text/html")])
  = MultiLayer.mkResult false "unknown-pattern" 40 ["pattern"].
Proof.
  apply (no_match_high_score
           (mkRequest [("user-agent", "Mozilla/5.0"); ("cookie", "sid=1");
                       ("accept", "text/html")]));
    [reflexivity | vm_compute; discriminate].
Defined.

(** C7. When some entry of the table accepts the identification
    string and the pattern score is at least 40, both layers are in
    the result, the confidence is [min(100, 95 + 5) = 100] and the
    request is classified as an agent. *)
Theorem both_layers_qualify (request : Request) :
  Spec.anyMatch MultiLayer.KNOWN_AGENTS (Spec.userAgent request) = true ->
  MultiLayer.CONFIDENCE.PATTERN <= MultiLayer.analyzePatterns request ->
  MultiLayer.layers (MultiLayer.detectAgent request) = ["ua"; "pattern"]
  /\ MultiLayer.confidence (MultiLayer.detectAgent request)
     = Z.min 100 (MultiLayer.CONFIDENCE.SERVER_UA + MultiLayer.CONFIDENCE.EXTRA_LAYER_BONUS)
  /\ MultiLayer.confidence (MultiLayer.detectAgent request) = 100
  /\ MultiLayer.isAgent (MultiLayer.detectAgent request) = true.
Proof.
  unfold MultiLayer.CONFIDENCE.PATTERN. intros Hm Hhigh.
  destruct (anyMatch_first _ _ Hm) as (k & name & pattern & Hk & Ht & Hb).
  rewrite (detectAgent_first_match _ _ _ _ Hk Ht Hb).
  destruct (MultiLayer.analyzePatterns request >=? 40) eqn:Hq; [| lia].
  repeat split.
Qed.

Lemma both_layers_qualify_witness :
  MultiLayer.layers (MultiLayer.detectAgent Samples.gptbot) = ["ua"; "pattern"]
  /\ MultiLayer.confidence (MultiLayer.detectAgent Samples.gptbot) = Z.min 100 (95 + 5)
  /\ MultiLayer.confidence (MultiLayer.detectAgent Samples.gptbot) = 100
  /\ MultiLayer.isAgent (MultiLayer.detectAgent Samples.gptbot) = true.
Proof.
  apply (both_layers_qualify Samples.gptbot);
    [reflexivity | vm_compute; discriminate].
Defined.

(** C8. The pattern score lies between 0 and 60; it is the sum of the
    weights of the rows that fire, the two rows of the Accept header
    never fire together, and the request without any header scores 60. *)
Theorem analyzePatterns_bounded (request : Request) :
  0 <= MultiLayer.analyzePatterns request <= 60
  /\ MultiLayer.analyzePatterns request
     = Spec.weight (Spec.absent request "referer") 10
       + Spec.weight (Spec.absent request "cookie") 10
       + Spec.weight (Spec.absent request "accept-language") 15
       + Spec.weight (Spec.acceptWildcardFires request) 10
       + Spec.weight (Spec.acceptNoHtmlFires request) 10
       + Spec.weight (Spec.absent request "sec-fetch-mode") 10
       + Spec.weight (Spec.absent request "sec-fetch-site") 5
  /\ Spec.acceptWildcardFires request && Spec.acceptNoHtmlFires request = false
  /\ MultiLayer.analyzePatterns (mkRequest []) = 60.
Proof.
  split; [apply analyzePatterns_range |].
  split; [apply analyzePatterns_rows |].
  split; [| reflexivity].
  unfold Spec.acceptWildcardFires, Spec.acceptNoHtmlFires; cbv zeta.
  destruct (negb (JS.truthy (Some (JS.nullish (Headers.get (headers request) "accept") "")))
            || String.eqb (JS.nullish (Headers.get (headers request) "accept") "") "*/*");
    reflexivity.
Qed.

(** C9. On a request whose pattern score is 0, the multi-layer
    detector reports the same [isAgent], [agentName] and [confidence] as
    the single-layer detector applied to the identification string of
    that request. *)
Theorem single_layer_is_degenerate_case (request : Request) :
  MultiLayer.analyzePatterns request = 0 ->
  SingleLayer.detectAgent (SingleLayer.userAgent request)
  = Spec.agentOf (MultiLayer.detectAgent request).
Proof.
  intros Hps. unfold SingleLayer.detectAgent.
  change SingleLayer.KNOWN_AGENTS with MultiLayer.KNOWN_AGENTS.
  change (SingleLayer.userAgent request) with (Spec.userAgent request).
  destruct (Spec.anyMatch MultiLayer.KNOWN_AGENTS (Spec.userAgent request)) eqn:Hm.
  - destruct (anyMatch_first _ _ Hm) as (k & name & pattern & Hk & Ht & Hb).
    rewrite (detectAgent_first_match _ _ _ _ Hk Ht Hb), Hps.
    exact (detectLoop_first_match _ _ _ _ _ Hk Ht Hb).
  - rewrite (detectAgent_no_match _ Hm), Hps.
    exact (detectLoop_no_match _ _ Hm).
Qed.

Lemma single_layer_is_degenerate_case_witness :
  SingleLayer.detectAgent "Mozilla/5.0 (compatible; bytespider)"
  = Spec.agentOf
      (MultiLayer.detectAgent (Samples.browser "Mozilla/5.0 (compatible; bytespider)")).
Proof.
  apply (single_layer_is_degenerate_case
           (Samples.browser "Mozilla/5.0 (compatible; bytespider)")).
  reflexivity.
Defined.

(** C3, as the code has it. An absent cookie header is worth 10: a
    request without one scores 10 more than the same request carrying
    a non-empty cookie. A request without referer, cookie,
    accept-language and fetch headers, whose accept header is the
    wildcard, scores 10+10+15+10+10+5 = 60, and when no table entry
    accepts its identification string its confidence is 60. *)
Theorem absent_cookie_scores_ten (request : Request) :
  Headers.get (headers request) "cookie" = None ->
  (forall value : string, value <> "" ->
     MultiLayer.analyzePatterns request
     = MultiLayer.analyzePatterns (Spec.withHeader "cookie" value request) + 10)
  /\ (Headers.get (headers request) "referer" = None ->
      Headers.get (headers request) "accept-language" = None ->
      Headers.get (headers request) "accept" = Some "*/*" ->
      Headers.get (headers request) "sec-fetch-mode" = None ->
      Headers.get (headers request) "sec-fetch-site" = None ->
      MultiLayer.analyzePatterns request = 10 + 10 + 15 + 10 + 10 + 5
      /\ (Spec.anyMatch MultiLayer.KNOWN_AGENTS (Spec.userAgent request) = false ->
          MultiLayer.detectAgent request
          = MultiLayer.mkResult true "unknown-pattern" 60 ["pattern"])).
Proof.
  intros Hcookie. split.
  - intros value Hvalue. rewrite !analyzePatterns_rows.
    unfold Spec.absent, Spec.acceptWildcardFires, Spec.acceptNoHtmlFires.
    rewrite (get_withHeader_other "cookie" "referer"),
      (get_withHeader_other "cookie" "accept-language"),
      (get_withHeader_other "cookie" "accept"),
      (get_withHeader_other "cookie" "sec-fetch-mode"),
      (get_withHeader_other "cookie" "sec-fetch-site") by reflexivity.
    rewrite (get_withHeader_fresh _ _ _ Hcookie), Hcookie.
    destruct value as [|c value]; [contradiction |].
    change (Spec.weight (negb (JS.truthy None)) 10) with 10.
    change (Spec.weight (negb (JS.truthy (Some (String c value)))) 10) with 0.
    lia.
  - intros Href Hlang Haccept Hmode Hsite.
    assert (Hps : MultiLayer.analyzePatterns request = 60).
    { unfold MultiLayer.analyzePatterns.
      rewrite Hcookie, Href, Hlang, Haccept, Hmode, Hsite. reflexivity. }
    split; [exact Hps |].
    intros Hm. rewrite (detectAgent_no_match _ Hm), Hps. reflexivity.
Qed.

Lemma absent_cookie_scores_ten_witness :
  MultiLayer.analyzePatterns Samples.wildcard
  = MultiLayer.analyzePatterns (Spec.withHeader "cookie" "sid=1" Samples.wildcard) + 10
  /\ MultiLayer.analyzePatterns Samples.wildcard = 10 + 10 + 15 + 10 + 10 + 5
  /\ MultiLayer.detectAgent Samples.wildcard
     = MultiLayer.mkResult true "unknown-pattern" 60 ["pattern"].
Proof.
  destruct (absent_cookie_scores_ten Samples.wildcard eq_refl) as [Hten Hscenario].
  split; [apply Hten; discriminate |].
  destruct (Hscenario eq_refl eq_refl eq_refl eq_refl eq_refl) as [Hscore Hresult].
  split; [exact Hscore | apply Hresult; reflexivity].
Defined.

(** C3, as the claim has it, fails on the request of its own scenario:
    the score and the confidence are 60, not 65, and the absent cookie
    accounts for 10 of it, not 15. *)
Lemma absent_cookie_is_not_fifteen :
  Headers.get (headers Samples.wildcard) "cookie" = None
  /\ MultiLayer.analyzePatterns Samples.wildcard = 60
  /\ MultiLayer.analyzePatterns Samples.wildcard <> 10 + 15 + 15 + 10 + 10 + 5
  /\ MultiLayer.confidence (MultiLayer.detectAgent Samples.wildcard) = 60
  /\ MultiLayer.confidence (MultiLayer.detectAgent Samples.wildcard) <> 65
  /\ MultiLayer.analyzePatterns Samples.wildcard
     <> MultiLayer.analyzePatterns (Spec.withHeader "cookie" "sid=1" Samples.wildcard) + 15.
Proof.
  repeat split; try reflexivity; vm_compute; discriminate.
Qed.

(** ** The result, class by class, with the entry that matched *)

Lemma detectAgent_classes (request : Request) :
  let ps := MultiLayer.analyzePatterns request in
  let ua := Spec.userAgent request in
  (Spec.anyMatch MultiLayer.KNOWN_AGENTS ua = false /\ ps < 40
   /\ MultiLayer.detectAgent request = MultiLayer.mkResult false "" 0 [])
  \/ (Spec.anyMatch MultiLayer.KNOWN_AGENTS ua = false /\ 40 <= ps <= 60
      /\ MultiLayer.detectAgent request
         = MultiLayer.mkResult (ps >=? 50) "unknown-pattern" ps ["pattern"])
  \/ (exists name pattern,
         In (name, pattern) MultiLayer.KNOWN_AGENTS
         /\ Spec.anyMatch MultiLayer.KNOWN_AGENTS ua = true /\ ps < 40
         /\ MultiLayer.detectAgent request = MultiLayer.mkResult true name 95 ["ua"])
  \/ (exists name pattern,
         In (name, pattern) MultiLayer.KNOWN_AGENTS
         /\ Spec.anyMatch MultiLayer.KNOWN_AGENTS ua = true /\ 40 <= ps <= 60
         /\ MultiLayer.detectAgent request
            = MultiLayer.mkResult true name 100 ["ua"; "pattern"]).
Proof.
  intros ps ua. pose proof (analyzePatterns_range request) as Hr. fold ps in Hr.
  destruct (Spec.anyMatch MultiLayer.KNOWN_AGENTS ua) eqn:Hm.
  - destruct (anyMatch_first _ _ Hm) as (k & name & pattern & Hk & Ht & Hb).
    rewrite (detectAgent_first_match _ _ _ _ Hk Ht Hb). fold ps.
    apply nth_error_In in Hk.
    destruct (ps >=? 40) eqn:Hq.
    + right; right; right. exists name, pattern. repeat split; auto; lia.
    + right; right; left. exists name, pattern. repeat split; auto; lia.
  - rewrite (detectAgent_no_match _ Hm). fold ps.
    destruct (ps >=? 40) eqn:Hq.
    + right; left. repeat split; auto; lia.
    + left. repeat split; auto; lia.
Qed.

Lemma known_names_distinguished name pattern :
  In (name, pattern) MultiLayer.KNOWN_AGENTS ->
  name <> "" /\ name <> "unknown-pattern".
Proof.
  assert (H : forallb (fun e => negb (String.eqb (fst e) "")
                                && negb (String.eqb (fst e) "unknown-pattern"))
                MultiLayer.KNOWN_AGENTS = true) by reflexivity.
  rewrite forallb_forall in H.
  intros Hin. specialize (H _ Hin). simpl in H.
  apply andb_true_iff in H as [H1 H2].
  apply negb_true_iff in H1, H2.
  split; intros ->.
  - now rewrite String.eqb_refl in H1.
  - now rewrite String.eqb_refl in H2.
Qed.

Lemma analyzePatterns_step (request : Request) :
  MultiLayer.analyzePatterns request mod 5 = 0.
Proof.
  unfold MultiLayer.analyzePatterns; cbv zeta.
  split_ifs; reflexivity.
Qed.

(** ** Layers, names and values of a result *)

(** X1. The layer list is empty exactly when the confidence is 0, and
    exactly when the agent name is empty. *)
Theorem no_layer_iff_zero (request : Request) :
  (MultiLayer.layers (MultiLayer.detectAgent request) = []
   <-> MultiLayer.confidence (MultiLayer.detectAgent request) = 0)
  /\ (MultiLayer.layers (MultiLayer.detectAgent request) = []
      <-> MultiLayer.agentName (MultiLayer.detectAgent request) = "").
Proof.
  destruct (detectAgent_classes request)
    as [(_ & _ & ->) | [(_ & H & ->)
       | [(name & pattern & Hin & _ & _ & ->) | (name & pattern & Hin & _ & _ & ->)]]];
    simpl.
  - repeat split; reflexivity.
  - repeat split; intros; try discriminate; lia.
  - destruct (known_names_distinguished _ _ Hin) as [Hne _].
    repeat split; intros; try discriminate; congruence.
  - destruct (known_names_distinguished _ _ Hin) as [Hne _].
    repeat split; intros; try discriminate; congruence.
Qed.

(** X2. The layer list is one of [], ["pattern"], ["ua"] and
    ["ua", "pattern"]; it holds "ua" exactly when some table entry
    accepts the identification string and "pattern" exactly when the
    pattern score reaches 40. *)
Theorem layer_inclusion (request : Request) :
  (In "ua" (MultiLayer.layers (MultiLayer.detectAgent request))
   <-> Spec.anyMatch MultiLayer.KNOWN_AGENTS (Spec.userAgent request) = true)
  /\ (In "pattern" (MultiLayer.layers (MultiLayer.detectAgent request))
      <-> MultiLayer.CONFIDENCE.PATTERN <= MultiLayer.analyzePatterns request)
  /\ In (MultiLayer.layers (MultiLayer.detectAgent request))
        [ []; ["pattern"]; ["ua"]; ["ua"; "pattern"] ].
Proof.
  unfold MultiLayer.CONFIDENCE.PATTERN.
  destruct (detectAgent_classes request)
    as [(Hm & H & ->) | [(Hm & H & ->)
       | [(name & pattern & _ & Hm & H & ->) | (name & pattern & _ & Hm & H & ->)]]];
    rewrite Hm; simpl; repeat split; intros;
    repeat match goal with
           | H : _ \/ _ |- _ => destruct H
           | H : False |- _ => destruct H
           end;
    try discriminate; try lia; auto 6.
Qed.

(** X3. The agent name is empty, "unknown-pattern" or the name of a
    table entry; it is "unknown-pattern" exactly when "pattern" is the
    only layer. *)
Theorem agentName_values (request : Request) :
  (MultiLayer.agentName (MultiLayer.detectAgent request) = ""
   \/ MultiLayer.agentName (MultiLayer.detectAgent request) = "unknown-pattern"
   \/ In (MultiLayer.agentName (MultiLayer.detectAgent request))
         (map fst MultiLayer.KNOWN_AGENTS))
  /\ (MultiLayer.agentName (MultiLayer.detectAgent request) = "unknown-pattern"
      <-> MultiLayer.layers (MultiLayer.detectAgent request) = ["pattern"]).
Proof.
  destruct (detectAgent_classes request)
    as [(_ & _ & ->) | [(_ & H & ->)
       | [(name & pattern & Hin & _ & _ & ->) | (name & pattern & Hin & _ & _ & ->)]]];
    cbn [MultiLayer.agentName MultiLayer.layers].
  - split; [auto |]. split; discriminate.
  - split; [auto |]. split; reflexivity.
  - destruct (known_names_distinguished _ _ Hin) as [_ Hne].
    split; [right; right; exact (in_map fst _ _ Hin) |].
    split; [contradiction | discriminate].
  - destruct (known_names_distinguished _ _ Hin) as [_ Hne].
    split; [right; right; exact (in_map fst _ _ Hin) |].
    split; [contradiction | discriminate].
Qed.

(** X4. The pattern score is a multiple of 5, the confidence is one
    of 0, 40, 45, 50, 55, 60, 95 and 100, and each of these values is
    the confidence of some request. *)
Theorem confidence_values (request : Request) :
  MultiLayer.analyzePatterns request mod 5 = 0
  /\ In (MultiLayer.confidence (MultiLayer.detectAgent request))
        [0; 40; 45; 50; 55; 60; 95; 100]
  /\ (forall v : Z, In v [0; 40; 45; 50; 55; 60; 95; 100] ->
      exists request' : Request,
        MultiLayer.confidence (MultiLayer.detectAgent request') = v).
Proof.
  pose proof (analyzePatterns_step request) as Hstep.
  split; [exact Hstep |].
  split; cycle 1.
  { intros v Hv. simpl in Hv.
    destruct Hv as [<- | [<- | [<- | [<- | [<- | [<- | [<- | [<- | []]]]]]]]].
    - exists (Samples.browser "Mozilla/5.0"). reflexivity.
    - exists (mkRequest [("cookie", "sid=1"); ("accept", "text/html")]). reflexivity.
    - exists (mkRequest [("accept-language", "en")]). reflexivity.
    - exists (mkRequest [("referer", "https://example.com/")]). reflexivity.
    - exists (mkRequest [("sec-fetch-site", "none")]). reflexivity.
    - exists (mkRequest []). reflexivity.
    - exists (Samples.browser "GPTBot/1.0"). reflexivity.
    - exists Samples.gptbot. reflexivity. }
  destruct (detectAgent_classes request)
    as [(_ & _ & ->) | [(_ & H & ->)
       | [(name & pattern & _ & _ & _ & ->) | (name & pattern & _ & _ & _ & ->)]]];
    cbn [MultiLayer.confidence]; simpl In; try tauto.
  assert (Hk : MultiLayer.analyzePatterns request
               = 5 * (MultiLayer.analyzePatterns request / 5))
    by (apply Z.div_exact; [lia | exact Hstep]).
  lia.
Qed.

(** ** Adding a header to a request *)

Lemma get_withHeader_same name name' value (request : Request) :
  Headers.nameIs name' (name, value) = true ->
  Headers.get (headers (Spec.withHeader name value request)) name'
  = Some match Headers.get (headers request) name' with
         | None => value
         | Some old => (value ++ ", " ++ old)%string
         end.
Proof.
  intros H. unfold Headers.get. simpl. rewrite H.
  destruct (filter (Headers.nameIs name') (headers request)); reflexivity.
Qed.

Lemma truthy_joined (value old : string) :
  JS.truthy (Some (value ++ ", " ++ old)%string) = true.
Proof. destruct value; reflexivity. Qed.

Lemma absent_withHeader name value (request : Request) name' :
  Spec.absent (Spec.withHeader name value request) name' = true ->
  Spec.absent request name' = true.
Proof.
  unfold Spec.absent.
  destruct (Headers.nameIs name' (name, value)) eqn:Hn.
  - rewrite (get_withHeader_same _ _ _ _ Hn).
    destruct (Headers.get (headers request) name') as [old|]; [| reflexivity].
    now rewrite truthy_joined.
  - now rewrite (get_withHeader_other _ _ _ _ Hn).
Qed.

Lemma weight_absent_withHeader name value (request : Request) name' (w : Z) :
  0 <= w ->
  Spec.weight (Spec.absent (Spec.withHeader name value request) name') w
  <= Spec.weight (Spec.absent request name') w.
Proof.
  intros Hw. pose proof (absent_withHeader name value request name') as H.
  destruct (Spec.absent (Spec.withHeader name value request) name');
    destruct (Spec.absent request name'); simpl;
    first [lia | discriminate (H eq_refl)].
Qed.

Lemma length_append (a b : string) :
  String.length (a ++ b) = (String.length a + String.length b)%nat.
Proof. induction a as [|c a IH]; simpl; [reflexivity | now rewrite IH]. Qed.

Lemma startsWith_length (s needle : string) :
  JS.startsWith s needle = true -> (String.length needle <= String.length s)%nat.
Proof.
  revert s. induction needle as [|c needle IH]; intros [|d s]; simpl; intros H;
    try lia; try discriminate.
  apply andb_true_iff in H as [_ H]. apply IH in H. lia.
Qed.

Lemma includes_length (s needle : string) :
  JS.includes s needle = true -> (String.length needle <= String.length s)%nat.
Proof.
  induction s as [|c s IH]; intros H; cbn [JS.includes] in H.
  - rewrite orb_false_r in H. now apply startsWith_length in H.
  - apply orb_true_iff in H as [H | H].
    + now apply startsWith_length in H.
    + apply IH in H. simpl. lia.
Qed.

Lemma includes_after (before s needle : string) :
  JS.includes s needle = true -> JS.includes (before ++ s) needle = true.
Proof.
  intros H. induction before as [|c before IH]; simpl.
  - exact H.
  - rewrite IH. apply orb_true_r.
Qed.

Lemma accept_rows_withHeader name value (request : Request) :
  Spec.weight (Spec.acceptWildcardFires (Spec.withHeader name value request)) 10
  + Spec.weight (Spec.acceptNoHtmlFires (Spec.withHeader name value request)) 10
  <= Spec.weight (Spec.acceptWildcardFires request) 10
     + Spec.weight (Spec.acceptNoHtmlFires request) 10.
Proof.
  unfold Spec.acceptWildcardFires, Spec.acceptNoHtmlFires; cbv zeta.
  destruct (Headers.nameIs "accept" (name, value)) eqn:Hn.
  2: { rewrite (get_withHeader_other _ _ _ _ Hn). lia. }
  rewrite (get_withHeader_same _ _ _ _ Hn).
  assert (Hle : forall b c : bool,
             Spec.weight b 10 + Spec.weight (negb b && c) 10 <= 10)
    by (intros [] []; simpl; lia).
  destruct (Headers.get (headers request) "accept") as [old|]; cbn [JS.nullish].
  2: { change (JS.truthy (Some "")) with false. simpl (negb false || _).
       simpl (Spec.weight true 10). simpl (Spec.weight (negb true && _) 10).
       pose proof (Hle (negb (JS.truthy (Some value)) || String.eqb value "*/*")
                       (negb (JS.includes value "text/html"))). lia. }
  destruct (negb (JS.truthy (Some old)) || String.eqb old "*/*") eqn:Hold.
  { simpl (Spec.weight true 10). simpl (Spec.weight (negb true && _) 10).
    pose proof (Hle (negb (JS.truthy (Some (value ++ ", " ++ old)%string))
                     || String.eqb (value ++ ", " ++ old)%string "*/*")
                    (negb (JS.includes (value ++ ", " ++ old)%string "text/html"))).
    lia. }
  destruct (JS.includes old "text/html") eqn:Hhtml.
  2: { simpl (Spec.weight false 10). simpl (Spec.weight (negb false && negb false) 10).
       pose proof (Hle (negb (JS.truthy (Some (value ++ ", " ++ old)%string))
                        || String.eqb (value ++ ", " ++ old)%string "*/*")
                       (negb (JS.includes (value ++ ", " ++ old)%string "text/html"))).
       lia. }
  rewrite truthy_joined.
  assert (Hincl : JS.includes (value ++ ", " ++ old)%string "text/html" = true).
  { apply includes_after. apply (includes_after ", "). exact Hhtml. }
  rewrite Hincl.
  assert (Hne : String.eqb (value ++ ", " ++ old)%string "*/*" = false).
  { apply String.eqb_neq. intros Heq.
    apply includes_length in Hincl. rewrite Heq in Hincl. simpl in Hincl. lia. }
  rewrite Hne. simpl. lia.
Qed.

(** X5. A request with one more header, whatever its name and value,
    never has a higher pattern score than the request without it. *)
Theorem analyzePatterns_withHeader_le (name value : string) (request : Request) :
  MultiLayer.analyzePatterns (Spec.withHeader name value request)
  <= MultiLayer.analyzePatterns request.
Proof.
  rewrite !analyzePatterns_rows.
  pose proof (accept_rows_withHeader name value request).
  pose proof (weight_absent_withHeader name value request "referer" 10).
  pose proof (weight_absent_withHeader name value request "cookie" 10).
  pose proof (weight_absent_withHeader name value request "accept-language" 15).
  pose proof (weight_absent_withHeader name value request "sec-fetch-mode" 10).
  pose proof (weight_absent_withHeader name value request "sec-fetch-site" 5).
  lia.
Qed.

(** X6. One more header that is not a user-agent header never raises
    the confidence and never turns a request that was not classified
    as an agent into one that is. *)
Theorem confidence_withHeader_le (name value : string) (request : Request) :
  Headers.nameIs "user-agent" (name, value) = false ->
  MultiLayer.confidence (MultiLayer.detectAgent (Spec.withHeader name value request))
  <= MultiLayer.confidence (MultiLayer.detectAgent request)
  /\ (MultiLayer.isAgent (MultiLayer.detectAgent request) = false ->
      MultiLayer.isAgent (MultiLayer.detectAgent (Spec.withHeader name value request))
      = false).
Proof.
  intros Hn.
  assert (Hle : MultiLayer.analyzePatterns (Spec.withHeader name value request)
                <= MultiLayer.analyzePatterns request).
  { rewrite !analyzePatterns_rows.
    pose proof (accept_rows_withHeader name value request).
    pose proof (weight_absent_withHeader name value request "referer" 10).
    pose proof (weight_absent_withHeader name value request "cookie" 10).
    pose proof (weight_absent_withHeader name value request "accept-language" 15).
    pose proof (weight_absent_withHeader name value request "sec-fetch-mode" 10).
    pose proof (weight_absent_withHeader name value request "sec-fetch-site" 5).
    lia. }
  pose proof (analyzePatterns_range request) as Hr.
  pose proof (analyzePatterns_range (Spec.withHeader name value request)) as Hr'.
  assert (Hua : Spec.userAgent (Spec.withHeader name value request)
                = Spec.userAgent request).
  { unfold Spec.userAgent. now rewrite (get_withHeader_other _ _ _ _ Hn). }
  destruct (Spec.anyMatch MultiLayer.KNOWN_AGENTS (Spec.userAgent request)) eqn:Hm.
  - destruct (anyMatch_first _ _ Hm) as (k & nm & pattern & Hk & Ht & Hb).
    rewrite (detectAgent_first_match request _ _ _ Hk Ht Hb).
    rewrite <- Hua in Ht, Hb.
    rewrite (detectAgent_first_match _ _ _ _ Hk Ht Hb).
    destruct (MultiLayer.analyzePatterns request >=? 40) eqn:Hq;
      destruct (MultiLayer.analyzePatterns (Spec.withHeader name value request) >=? 40)
        eqn:Hq'; simpl; split; try discriminate; lia.
  - rewrite (detectAgent_no_match request Hm).
    rewrite <- Hua in Hm. rewrite (detectAgent_no_match _ Hm).
    destruct (MultiLayer.analyzePatterns request >=? 40) eqn:Hq;
      destruct (MultiLayer.analyzePatterns (Spec.withHeader name value request) >=? 40)
        eqn:Hq'; simpl; split; try reflexivity; lia.
Qed.

Lemma confidence_withHeader_le_witness :
  MultiLayer.confidence
    (MultiLayer.detectAgent (Spec.withHeader "Cookie" "sid=1" Samples.wildcard))
  <= MultiLayer.confidence (MultiLayer.detectAgent Samples.wildcard)
  /\ (MultiLayer.isAgent (MultiLayer.detectAgent Samples.wildcard) = false ->
      MultiLayer.isAgent
        (MultiLayer.detectAgent (Spec.withHeader "Cookie" "sid=1" Samples.wildcard))
      = false).
Proof.
  apply (confidence_withHeader_le "Cookie" "sid=1" Samples.wildcard).
  reflexivity.
Defined.

(** ** What the signature patterns are insensitive to *)

Lemma Canonicalize_byteLower (c : ascii) :
  RegExp.Canonicalize true (Headers.byteLower c) = RegExp.Canonicalize true c.
Proof. destruct c as [[] [] [] [] [] [] [] []]; reflexivity. Qed.

Lemma litAt_lower (lit s : string) :
  RegExp.litAt true lit (Headers.lower s) = RegExp.litAt true lit s.
Proof.
  revert s. induction lit as [|c lit IH]; intros [|d s]; simpl; try reflexivity.
  unfold RegExp.charMatches. now rewrite Canonicalize_byteLower, IH.
Qed.

Lemma matchAt_lower (p : RegExp.Pattern) (s : string) :
  RegExp.matchAt true p (Headers.lower s) = RegExp.matchAt true p s.
Proof.
  induction p as [l | p1 IH1 p2 IH2]; simpl.
  - apply litAt_lower.
  - now rewrite IH1, IH2.
Qed.

Lemma search_lower (p : RegExp.Pattern) (s : string) :
  RegExp.search true p (Headers.lower s) = RegExp.search true p s.
Proof.
  induction s as [|c s IH].
  - reflexivity.
  - change (Headers.lower (String c s))
      with (String (Headers.byteLower c) (Headers.lower s)).
    cbn [RegExp.search]. rewrite IH.
    change (String (Headers.byteLower c) (Headers.lower s))
      with (Headers.lower (String c s)).
    now rewrite matchAt_lower.
Qed.

Lemma test_same_letters (entries : list (string * RegExp.t)) (ua ua' : string) :
  Measure.allIgnoreCase entries = true ->
  Headers.lower ua = Headers.lower ua' ->
  forall e, In e entries -> RegExp.test (snd e) ua = RegExp.test (snd e) ua'.
Proof.
  intros Hall Hlow e He. unfold Measure.allIgnoreCase in Hall.
  rewrite forallb_forall in Hall. specialize (Hall e He).
  unfold RegExp.test. rewrite Hall.
  now rewrite <- (search_lower _ ua), <- (search_lower _ ua'), Hlow.
Qed.

Lemma uaLoop_ext entries (ua ua' : string) st :
  (forall e, In e entries -> RegExp.test (snd e) ua = RegExp.test (snd e) ua') ->
  MultiLayer.uaLoop entries ua st = MultiLayer.uaLoop entries ua' st.
Proof.
  induction entries as [|[n p] rest IH]; simpl; intros H.
  - reflexivity.
  - pose proof (H (n, p) (or_introl eq_refl)) as Hp. simpl in Hp. rewrite Hp.
    rewrite IH by (intros e He; apply H; now right). reflexivity.
Qed.

Lemma detectLoop_ext entries (ua ua' : string) :
  (forall e, In e entries -> RegExp.test (snd e) ua = RegExp.test (snd e) ua') ->
  SingleLayer.detectLoop entries ua = SingleLayer.detectLoop entries ua'.
Proof.
  induction entries as [|[n p] rest IH]; simpl; intros H.
  - reflexivity.
  - pose proof (H (n, p) (or_introl eq_refl)) as Hp. simpl in Hp. rewrite Hp.
    rewrite IH by (intros e He; apply H; now right). reflexivity.
Qed.

(** X7. The single-layer detector does not look at letter case: two
    identification strings that differ only in the case of the letters
    A to Z get the same result. *)
Theorem detectAgent_ignores_case (ua ua' : string) :
  Headers.lower ua = Headers.lower ua' ->
  SingleLayer.detectAgent ua = SingleLayer.detectAgent ua'.
Proof.
  intros Hlow. unfold SingleLayer.detectAgent.
  apply detectLoop_ext.
  apply test_same_letters; [reflexivity | exact Hlow].
Qed.

Lemma detectAgent_ignores_case_witness :
  SingleLayer.detectAgent "Mozilla/5.0 (compatible; PERPLEXITYBOT/1.0)"
  = SingleLayer.detectAgent "mozilla/5.0 (Compatible; perplexitybot/1.0)".
Proof.
  apply detectAgent_ignores_case. reflexivity.
Defined.

(** X8. The multi-layer detector reads a request only through its
    pattern score and its identification string up to letter case: two
    requests that agree on both get the same result. *)
Theorem detectAgent_request_ignores_case (request request' : Request) :
  Headers.lower (Spec.userAgent request) = Headers.lower (Spec.userAgent request') ->
  MultiLayer.analyzePatterns request = MultiLayer.analyzePatterns request' ->
  MultiLayer.detectAgent request = MultiLayer.detectAgent request'.
Proof.
  intros Hlow Hps. unfold MultiLayer.detectAgent.
  fold (Spec.userAgent request). fold (Spec.userAgent request').
  rewrite Hps.
  rewrite (uaLoop_ext MultiLayer.KNOWN_AGENTS (Spec.userAgent request)
             (Spec.userAgent request') ([], "")); [reflexivity |].
  apply test_same_letters; [reflexivity | exact Hlow].
Qed.

Lemma detectAgent_request_ignores_case_witness :
  MultiLayer.detectAgent (mkRequest [("user-agent", "YOUBOT"); ("cookie", "a=1")])
  = MultiLayer.detectAgent (mkRequest [("Referer", "/"); ("User-Agent", "youbot")]).
Proof.
  apply detectAgent_request_ignores_case; reflexivity.
Defined.

(** ** Identification strings inside longer ones, and short ones *)

Lemma litAt_append (ic : bool) (lit s post : string) :
  RegExp.litAt ic lit s = true -> RegExp.litAt ic lit (s ++ post) = true.
Proof.
  revert s. induction lit as [|c lit IH]; intros [|d s]; simpl; intros H;
    try reflexivity; try discriminate.
  apply andb_true_iff in H as [Hc H]. now rewrite Hc, (IH _ H).
Qed.

Lemma matchAt_append (ic : bool) (p : RegExp.Pattern) (s post : string) :
  RegExp.matchAt ic p s = true -> RegExp.matchAt ic p (s ++ post) = true.
Proof.
  induction p as [l | p1 IH1 p2 IH2]; simpl; intros H.
  - now apply litAt_append.
  - apply orb_true_iff in H as [H | H];
      [rewrite (IH1 H) | rewrite (IH2 H)]; auto using orb_true_r.
Qed.

Lemma append_assoc (a b c : string) :
  ((a ++ b) ++ c)%string = (a ++ b ++ c)%string.
Proof. induction a as [|x a IH]; simpl; [reflexivity | now rewrite IH]. Qed.

Lemma search_embedded (ic : bool) (p : RegExp.Pattern) (pre s post : string) :
  RegExp.search ic p s = true ->
  RegExp.search ic p (pre ++ s ++ post) = true.
Proof.
  intros H. apply search_split in H as (before & rest & -> & Hm).
  apply search_split. exists (pre ++ before)%string, (rest ++ post)%string.
  split; [now rewrite !append_assoc | now apply matchAt_append].
Qed.

Lemma anyMatch_embedded entries (pre ua post : string) :
  Spec.anyMatch entries ua = true ->
  Spec.anyMatch entries (pre ++ ua ++ post) = true.
Proof.
  unfold Spec.anyMatch. rewrite !existsb_exists.
  intros (e & He & Ht). exists e. split; [exact He |].
  unfold RegExp.test in *. now apply search_embedded.
Qed.

Lemma detectLoop_anyMatch entries (ua : string) :
  SingleLayer.isAgent (SingleLayer.detectLoop entries ua) = Spec.anyMatch entries ua
  /\ SingleLayer.confidence (SingleLayer.detectLoop entries ua)
     = if Spec.anyMatch entries ua then 95 else 0.
Proof.
  induction entries as [|[n p] rest IH]; simpl.
  - split; reflexivity.
  - destruct (RegExp.test p ua); simpl; [split; reflexivity | exact IH].
Qed.

(** X9. An identification string the single-layer detector classifies
    as an agent stays classified as an agent, with confidence 95, when
    text is put before and after it. *)
Theorem detection_survives_embedding (pre ua post : string) :
  SingleLayer.isAgent (SingleLayer.detectAgent ua) = true ->
  SingleLayer.isAgent (SingleLayer.detectAgent (pre ++ ua ++ post)) = true
  /\ SingleLayer.confidence (SingleLayer.detectAgent (pre ++ ua ++ post)) = 95.
Proof.
  unfold SingleLayer.detectAgent. intros H.
  destruct (detectLoop_anyMatch SingleLayer.KNOWN_AGENTS ua) as [Hi _].
  rewrite Hi in H.
  apply (anyMatch_embedded _ pre ua post) in H.
  destruct (detectLoop_anyMatch SingleLayer.KNOWN_AGENTS (pre ++ ua ++ post))
    as [Hi' Hc'].
  rewrite Hi', Hc', H. split; reflexivity.
Qed.

Lemma detection_survives_embedding_witness :
  SingleLayer.isAgent
    (SingleLayer.detectAgent ("Mozilla/5.0 (compatible; " ++ "Amazonbot" ++ "/0.1)"))
  = true
  /\ SingleLayer.confidence
       (SingleLayer.detectAgent ("Mozilla/5.0 (compatible; " ++ "Amazonbot" ++ "/0.1)"))
     = 95.
Proof.
  apply (detection_survives_embedding "Mozilla/5.0 (compatible; " "Amazonbot" "/0.1)").
  reflexivity.
Defined.

Lemma litAt_length (ic : bool) (lit s : string) :
  RegExp.litAt ic lit s = true -> (String.length lit <= String.length s)%nat.
Proof.
  revert s. induction lit as [|c lit IH]; intros [|d s]; simpl; intros H;
    try lia; try discriminate.
  apply andb_true_iff in H as [_ H]. apply IH in H. lia.
Qed.

Lemma matchAt_length (ic : bool) (p : RegExp.Pattern) (s : string) :
  RegExp.matchAt ic p s = true -> (Measure.minLength p <= String.length s)%nat.
Proof.
  induction p as [l | p1 IH1 p2 IH2]; simpl; intros H.
  - now apply litAt_length in H.
  - apply orb_true_iff in H as [H | H]; [apply IH1 in H | apply IH2 in H]; lia.
Qed.

Lemma search_length (ic : bool) (p : RegExp.Pattern) (s : string) :
  RegExp.search ic p s = true -> (Measure.minLength p <= String.length s)%nat.
Proof.
  intros H. apply search_split in H as (before & rest & -> & Hm).
  apply matchAt_length in Hm. rewrite length_append. lia.
Qed.

Lemma short_string_no_match (ua : string) :
  (String.length ua < 6)%nat ->
  Spec.anyMatch MultiLayer.KNOWN_AGENTS ua = false.
Proof.
  intros Hlen.
  assert (Hmin : forallb (fun e => (6 <=? Measure.minLength (RegExp.source (snd e)))%nat)
                   MultiLayer.KNOWN_AGENTS = true) by reflexivity.
  rewrite forallb_forall in Hmin.
  destruct (Spec.anyMatch MultiLayer.KNOWN_AGENTS ua) eqn:Hm; [| reflexivity].
  unfold Spec.anyMatch in Hm. apply existsb_exists in Hm as (e & He & Ht).
  specialize (Hmin e He). apply Nat.leb_le in Hmin.
  apply search_length in Ht. lia.
Qed.

(** X10. An identification string of fewer than six characters, the
    empty one included, is never classified as an agent by the
    single-layer detector. *)
Theorem short_ua_is_human (ua : string) :
  (String.length ua < 6)%nat ->
  SingleLayer.detectAgent ua = SingleLayer.mkAgent false "" 0.
Proof.
  intros Hlen. unfold SingleLayer.detectAgent.
  apply detectLoop_no_match.
  change SingleLayer.KNOWN_AGENTS with MultiLayer.KNOWN_AGENTS.
  now apply short_string_no_match.
Qed.

Lemma short_ua_is_human_witness :
  SingleLayer.detectAgent "curl" = SingleLayer.mkAgent false "" 0.
Proof.
  apply short_ua_is_human. simpl. lia.
Defined.

(** X11. A request without a user-agent header, or with one of fewer
    than six characters, gets no signature layer: its result is decided
    by the pattern score alone, and its confidence is at most 60. *)
Theorem missing_ua_pattern_only (request : Request) :
  Headers.get (headers request) "user-agent" = None
  \/ (String.length (Spec.userAgent request) < 6)%nat ->
  MultiLayer.detectAgent request
  = (if MultiLayer.analyzePatterns request >=? 40
     then MultiLayer.mkResult (MultiLayer.analyzePatterns request >=? 50)
            "unknown-pattern" (MultiLayer.analyzePatterns request) ["pattern"]
     else MultiLayer.mkResult false "" 0 [])
  /\ MultiLayer.confidence (MultiLayer.detectAgent request) <= 60.
Proof.
  intros H.
  assert (Hlen : (String.length (Spec.userAgent request) < 6)%nat).
  { destruct H as [H | H]; [| exact H].
    unfold Spec.userAgent. rewrite H. simpl. lia. }
  pose proof (short_string_no_match _ Hlen) as Hm.
  pose proof (analyzePatterns_range request) as Hr.
  rewrite (detectAgent_no_match _ Hm).
  split; [reflexivity |].
  destruct (MultiLayer.analyzePatterns request >=? 40); simpl; lia.
Qed.

Lemma missing_ua_pattern_only_witness :
  MultiLayer.detectAgent (mkRequest [("accept", "text/html")])
  = (if MultiLayer.analyzePatterns (mkRequest [("accept", "text/html")]) >=? 40
     then MultiLayer.mkResult
            (MultiLayer.analyzePatterns (mkRequest [("accept", "text/html")]) >=? 50)
            "unknown-pattern"
            (MultiLayer.analyzePatterns (mkRequest [("accept", "text/html")]))
            ["pattern"]
     else MultiLayer.mkResult false "" 0 [])
  /\ MultiLayer.confidence (MultiLayer.detectAgent (mkRequest [("accept", "text/html")]))
     <= 60.
Proof.
  apply (missing_ua_pattern_only (mkRequest [("accept", "text/html")])).
  left. reflexivity.
Defined.

(** ** The table *)

(** X12. No entry of the table is dead: for each entry some
    identification string makes the single-layer detector return its
    name with confidence 95, and the multi-layer detector return its
    name too. *)
Theorem every_entry_reachable (name : string) (pattern : RegExp.t) :
  In (name, pattern) SingleLayer.KNOWN_AGENTS ->
  exists ua : string,
    SingleLayer.detectAgent ua = SingleLayer.mkAgent true name 95
    /\ MultiLayer.agentName (MultiLayer.detectAgent (Samples.browser ua)) = name.
Proof.
  intros H. unfold SingleLayer.KNOWN_AGENTS in H.
  repeat (destruct H as [H | H];
          [ match type of H with
            | context [RegExp.Lit ?l] =>
                injection H as <- <-; exists l; split; reflexivity
            end | ]).
  destruct H.
Qed.

Lemma every_entry_reachable_witness :
  exists ua : string,
    SingleLayer.detectAgent ua = SingleLayer.mkAgent true "GeminiBot" 95
    /\ MultiLayer.agentName (MultiLayer.detectAgent (Samples.browser ua)) = "GeminiBot".
Proof.
  apply (every_entry_reachable "GeminiBot"
           (SingleLayer.i (RegExp.Alt (RegExp.Lit "GeminiiOS") (RegExp.Lit "Gemini/")))).
  simpl. tauto.
Defined.

(** ** The two detectors side by side *)

(** X13. On every request the multi-layer detector reports at least
    the confidence of the single-layer detector; what the single-layer
    detector classifies as an agent the multi-layer one classifies as
    an agent under the same name, and what it does not gets the empty
    name or "unknown-pattern". *)
Theorem multi_extends_single (request : Request) :
  SingleLayer.confidence (SingleLayer.detectAgent (SingleLayer.userAgent request))
  <= MultiLayer.confidence (MultiLayer.detectAgent request)
  /\ (SingleLayer.isAgent (SingleLayer.detectAgent (SingleLayer.userAgent request)) = true ->
      MultiLayer.isAgent (MultiLayer.detectAgent request) = true
      /\ MultiLayer.agentName (MultiLayer.detectAgent request)
         = SingleLayer.agentName (SingleLayer.detectAgent (SingleLayer.userAgent request)))
  /\ (SingleLayer.isAgent (SingleLayer.detectAgent (SingleLayer.userAgent request)) = false ->
      MultiLayer.agentName (MultiLayer.detectAgent request) = ""
      \/ MultiLayer.agentName (MultiLayer.detectAgent request) = "unknown-pattern").
Proof.
  unfold SingleLayer.detectAgent.
  change SingleLayer.KNOWN_AGENTS with MultiLayer.KNOWN_AGENTS.
  change (SingleLayer.userAgent request) with (Spec.userAgent request).
  pose proof (analyzePatterns_range request) as Hr.
  destruct (Spec.anyMatch MultiLayer.KNOWN_AGENTS (Spec.userAgent request)) eqn:Hm.
  - destruct (anyMatch_first _ _ Hm) as (k & name & pattern & Hk & Ht & Hb).
    rewrite (detectAgent_first_match _ _ _ _ Hk Ht Hb).
    rewrite (detectLoop_first_match _ _ _ _ _ Hk Ht Hb).
    destruct (MultiLayer.analyzePatterns request >=? 40); simpl;
      repeat split; try lia; discriminate.
  - rewrite (detectAgent_no_match _ Hm), (detectLoop_no_match _ _ Hm).
    destruct (MultiLayer.analyzePatterns request >=? 40) eqn:Hq; simpl;
      repeat split; try lia; try discriminate; auto.
Qed.

Lemma multi_extends_single_witness :
  MultiLayer.isAgent (MultiLayer.detectAgent Samples.gptbot) = true
  /\ MultiLayer.agentName (MultiLayer.detectAgent Samples.gptbot)
     = SingleLayer.agentName (SingleLayer.detectAgent (SingleLayer.userAgent Samples.gptbot)).
Proof.
  apply (multi_extends_single Samples.gptbot). reflexivity.
Defined.

(** ** Requests that look like a browser *)

(** X14. A request that carries a non-empty accept-language header
    and whose identification string no table entry accepts is never
    classified as an agent: its pattern score is at most 45. *)
Theorem accept_language_is_not_agent (request : Request) :
  JS.truthy (Headers.get (headers request) "accept-language") = true ->
  Spec.anyMatch MultiLayer.KNOWN_AGENTS (Spec.userAgent request) = false ->
  MultiLayer.analyzePatterns request <= 45
  /\ MultiLayer.isAgent (MultiLayer.detectAgent request) = false.
Proof.
  intros Hlang Hm.
  assert (Hps : MultiLayer.analyzePatterns request <= 45).
  { unfold MultiLayer.analyzePatterns. rewrite Hlang. cbn [negb]. cbv zeta.
    split_ifs; lia. }
  split; [exact Hps |].
  rewrite (detectAgent_no_match _ Hm).
  destruct (MultiLayer.analyzePatterns request >=? 40); simpl; [lia | reflexivity].
Qed.

Lemma accept_language_is_not_agent_witness :
  MultiLayer.analyzePatterns
    (mkRequest [("user-agent", "curl/8.4.0"); ("accept-language", "en")]) <= 45
  /\ MultiLayer.isAgent
       (MultiLayer.detectAgent
          (mkRequest [("user-agent", "curl/8.4.0"); ("accept-language", "en")]))
     = false.
Proof.
  apply accept_language_is_not_agent; reflexivity.
Defined.

(** ** The log label *)

Lemma label_is_not_human (a b : string) :
  (a ++ String " " (String "(" b))%string <> "human".
Proof.
  destruct a as [|c1 [|c2 [|c3 [|c4 [|c5 [|c6 a]]]]]]; simpl; discriminate.
Qed.

(** X15. The label the multi-layer middleware logs is "human" exactly
    when the confidence is below 50; otherwise it is the name of a
    table entry followed by " (95%, ua)" or " (100%, ua+pattern)", or
    "unknown-pattern" followed by the pattern score 50, 55 or 60. *)
Theorem label_values (request : Request) :
  (Label.label (MultiLayer.detectAgent request) = "human"
   <-> MultiLayer.confidence (MultiLayer.detectAgent request) < 50)
  /\ (Label.label (MultiLayer.detectAgent request) = "human"
      \/ (exists name : string,
             In name (map fst MultiLayer.KNOWN_AGENTS)
             /\ (Label.label (MultiLayer.detectAgent request)
                 = (name ++ " (95%, ua)")%string
                 \/ Label.label (MultiLayer.detectAgent request)
                    = (name ++ " (100%, ua+pattern)")%string))
      \/ In (Label.label (MultiLayer.detectAgent request))
            [ "unknown-pattern (50%, pattern)";
              "unknown-pattern (55%, pattern)";
              "unknown-pattern (60%, pattern)" ]).
Proof.
  pose proof (analyzePatterns_step request) as Hstep.
  destruct (detectAgent_classes request)
    as [(_ & _ & ->) | [(_ & H & ->)
       | [(name & pattern & Hin & _ & _ & ->) | (name & pattern & Hin & _ & _ & ->)]]].
  - split; [split; [intros _; simpl; lia | reflexivity] | left; reflexivity].
  - destruct (MultiLayer.analyzePatterns request >=? 50) eqn:H50.
    + assert (Hk : MultiLayer.analyzePatterns request
                   = 5 * (MultiLayer.analyzePatterns request / 5))
        by (apply Z.div_exact; [lia | exact Hstep]).
      assert (Hv : MultiLayer.analyzePatterns request = 50
                   \/ MultiLayer.analyzePatterns request = 55
                   \/ MultiLayer.analyzePatterns request = 60) by lia.
      destruct Hv as [-> | [-> | ->]];
        (split; [split; [discriminate | simpl; lia] | right; right; simpl; tauto]).
    + split; [split; [intros _; simpl; lia | reflexivity] | left; reflexivity].
  - split.
    + split; [intros Hl; exfalso; exact (label_is_not_human _ _ Hl) | simpl; lia].
    + right; left. exists name. split; [exact (in_map fst _ _ Hin) | left; reflexivity].
  - split.
    + split; [intros Hl; exfalso; exact (label_is_not_human _ _ Hl) | simpl; lia].
    + right; left. exists name. split; [exact (in_map fst _ _ Hin) | right; reflexivity].
Qed.

(** X16. The label the single-layer middleware logs is "human" or the
    name of a table entry, and it is "human" exactly when the detector
    does not classify the identification string as an agent. *)
Theorem singleLabel_values (ua : string) :
  (Label.singleLabel (SingleLayer.detectAgent ua) = "human"
   \/ In (Label.singleLabel (SingleLayer.detectAgent ua))
         (map fst SingleLayer.KNOWN_AGENTS))
  /\ (Label.singleLabel (SingleLayer.detectAgent ua) = "human"
      <-> SingleLayer.isAgent (SingleLayer.detectAgent ua) = false).
Proof.
  unfold SingleLayer.detectAgent.
  assert (Hnames : forallb (fun e => negb (String.eqb (fst e) "human"))
                     SingleLayer.KNOWN_AGENTS = true) by reflexivity.
  rewrite forallb_forall in Hnames.
  destruct (Spec.anyMatch SingleLayer.KNOWN_AGENTS ua) eqn:Hm.
  - destruct (anyMatch_first _ _ Hm) as (k & name & pattern & Hk & Ht & Hb).
    rewrite (detectLoop_first_match _ _ _ _ _ Hk Ht Hb).
    apply nth_error_In in Hk. specialize (Hnames _ Hk). simpl in Hnames.
    apply negb_true_iff, String.eqb_neq in Hnames.
    unfold Label.singleLabel; simpl. split.
    + right. exact (in_map fst _ _ Hk).
    + split; [contradiction | discriminate].
  - rewrite (detectLoop_no_match _ _ Hm).
    split; [left; reflexivity | split; reflexivity].
Qed.

(** ** Where the two variants part, and silent patterns *)

(** X17. The two variants report the same [isAgent], [agentName] and
    [confidence] for a request exactly when its pattern score is below
    40. *)
Theorem variants_agree_iff (request : Request) :
  Spec.agentOf (MultiLayer.detectAgent request)
  = SingleLayer.detectAgent (SingleLayer.userAgent request)
  <-> MultiLayer.analyzePatterns request < MultiLayer.CONFIDENCE.PATTERN.
Proof.
  unfold SingleLayer.detectAgent, MultiLayer.CONFIDENCE.PATTERN.
  change SingleLayer.KNOWN_AGENTS with MultiLayer.KNOWN_AGENTS.
  change (SingleLayer.userAgent request) with (Spec.userAgent request).
  pose proof (analyzePatterns_range request) as Hr.
  destruct (Spec.anyMatch MultiLayer.KNOWN_AGENTS (Spec.userAgent request)) eqn:Hm.
  - destruct (anyMatch_first _ _ Hm) as (k & name & pattern & Hk & Ht & Hb).
    rewrite (detectAgent_first_match _ _ _ _ Hk Ht Hb).
    rewrite (detectLoop_first_match _ _ _ _ _ Hk Ht Hb).
    destruct (MultiLayer.analyzePatterns request >=? 40) eqn:Hq;
      unfold Spec.agentOf; simpl; split; intros H;
      try reflexivity; try lia; discriminate.
  - rewrite (detectAgent_no_match _ Hm), (detectLoop_no_match _ _ Hm).
    destruct (MultiLayer.analyzePatterns request >=? 40) eqn:Hq;
      unfold Spec.agentOf; simpl; split; intros H;
      try reflexivity; try lia; discriminate.
Qed.

(** X18. A result that names an agent while [isAgent] is false is one
    with confidence 40 or 45; its name is then "unknown-pattern" and its
    only layer is "pattern". *)
Theorem named_but_not_agent (request : Request) :
  (MultiLayer.isAgent (MultiLayer.detectAgent request) = false
   /\ MultiLayer.agentName (MultiLayer.detectAgent request) <> ""
   <-> MultiLayer.confidence (MultiLayer.detectAgent request) = 40
       \/ MultiLayer.confidence (MultiLayer.detectAgent request) = 45)
  /\ (MultiLayer.isAgent (MultiLayer.detectAgent request) = false ->
      MultiLayer.agentName (MultiLayer.detectAgent request) <> "" ->
      MultiLayer.detectAgent request
      = MultiLayer.mkResult false "unknown-pattern"
          (MultiLayer.analyzePatterns request) ["pattern"]).
Proof.
  pose proof (analyzePatterns_step request) as Hstep.
  destruct (detectAgent_classes request)
    as [(_ & _ & ->) | [(_ & H & ->)
       | [(name & pattern & Hin & _ & _ & ->) | (name & pattern & Hin & _ & _ & ->)]]];
    simpl.
  - split; [split; [intros [_ Hn]; now contradiction Hn | lia] |].
    intros _ Hn. now contradiction Hn.
  - assert (Hk : MultiLayer.analyzePatterns request
                 = 5 * (MultiLayer.analyzePatterns request / 5))
      by (apply Z.div_exact; [lia | exact Hstep]).
    destruct (MultiLayer.analyzePatterns request >=? 50) eqn:H50.
    + split; [split; [intros [Hf _]; discriminate | lia] | discriminate].
    + split; [| reflexivity].
      split; [intros _; lia | intros _; split; [reflexivity | discriminate]].
  - split; [split; [intros [Hf _]; discriminate | lia] | discriminate].
  - split; [split; [intros [Hf _]; discriminate | lia] | discriminate].
Qed.

Lemma named_but_not_agent_witness :
  MultiLayer.detectAgent (mkRequest [("accept-language", "en")])
  = MultiLayer.mkResult false "unknown-pattern"
      (MultiLayer.analyzePatterns (mkRequest [("accept-language", "en")])) ["pattern"].
Proof.
  apply (named_but_not_agent (mkRequest [("accept-language", "en")]));
    [reflexivity | discriminate].
Defined.

Lemma accept_rows_silent (request : Request) :
  Spec.weight (Spec.acceptWildcardFires request) 10
  + Spec.weight (Spec.acceptNoHtmlFires request) 10 = 0
  <-> JS.includes (JS.nullish (Headers.get (headers request) "accept") "") "text/html"
      = true.
Proof.
  unfold Spec.acceptWildcardFires, Spec.acceptNoHtmlFires; cbv zeta.
  set (accept := JS.nullish (Headers.get (headers request) "accept") "").
  destruct (JS.includes accept "text/html") eqn:Hincl.
  - pose proof (includes_length _ _ Hincl) as Hlen. simpl in Hlen.
    assert (Hw : negb (JS.truthy (Some accept)) || String.eqb accept "*/*" = false).
    { apply orb_false_iff. split.
      - destruct accept; [simpl in Hlen; lia | reflexivity].
      - apply String.eqb_neq. intros Heq. rewrite Heq in Hlen. simpl in Hlen. lia. }
    rewrite Hw. simpl. split; reflexivity.
  - destruct (negb (JS.truthy (Some accept)) || String.eqb accept "*/*"); simpl;
      split; intros H; try discriminate; lia.
Qed.

(** X19. The pattern score is 0 exactly for a request whose referer,
    cookie, accept-language, sec-fetch-mode and sec-fetch-site headers
    are all non-empty and whose accept header contains "text/html". *)
Theorem analyzePatterns_zero_iff (request : Request) :
  MultiLayer.analyzePatterns request = 0
  <-> JS.truthy (Headers.get (headers request) "referer") = true
      /\ JS.truthy (Headers.get (headers request) "cookie") = true
      /\ JS.truthy (Headers.get (headers request) "accept-language") = true
      /\ JS.includes (JS.nullish (Headers.get (headers request) "accept") "") "text/html"
         = true
      /\ JS.truthy (Headers.get (headers request) "sec-fetch-mode") = true
      /\ JS.truthy (Headers.get (headers request) "sec-fetch-site") = true.
Proof.
  rewrite analyzePatterns_rows, <- accept_rows_silent.
  assert (Ha : 0 <= Spec.weight (Spec.acceptWildcardFires request) 10
                    + Spec.weight (Spec.acceptNoHtmlFires request) 10)
    by (destruct (Spec.acceptWildcardFires request);
        destruct (Spec.acceptNoHtmlFires request); simpl; lia).
  unfold Spec.absent.
  destruct (JS.truthy (Headers.get (headers request) "referer"));
    destruct (JS.truthy (Headers.get (headers request) "cookie"));
    destruct (JS.truthy (Headers.get (headers request) "accept-language"));
    destruct (JS.truthy (Headers.get (headers request) "sec-fetch-mode"));
    destruct (JS.truthy (Headers.get (headers request) "sec-fetch-site"));
    cbn [negb Spec.weight];
    (split; [intros H; repeat split; try reflexivity; lia
            | intros (H1 & H2 & H3 & H4 & H5 & H6); try discriminate; lia]).
Qed.
